(** * RAPIDS hyperparameter optimisation on AzureML: the notebook as a script

    The repository's program is one Jupyter notebook,
    [source/examples/rapids-azureml-hpo/notebook.ipynb].  Its code cells,
    run top to bottom, form a linear Python script that drives the
    [azure-ai-ml] client library.  This development embeds that script:

    - the SDK entities the script builds are records of their keyword
      arguments ([AmlCompute], [Environment], [Command], ...);
    - everything outside the script (the workspace, the compute service,
      the job service, the operating system) is a [Platform]: one
      state-passing operation per call the script makes, each of which may
      return or raise;
    - the script itself is a term of a small state-and-exception monad
      whose state holds the platform state and the transcript of the
      statements executed so far. *)

From Stdlib Require Import ZArith QArith Ascii String.
From stdpp Require Import base option list strings gmap fin_maps.

Local Open Scope Z_scope.
Local Open Scope string_scope.

(** ** Python values and helpers *)

(** The newline character of the Python literal ["\n"]. *)
Definition nl : string := String "010"%char EmptyString.

(** [sep.join(args)]. *)
Fixpoint join (sep : string) (args : list string) : string :=
  match args with
  | [] => ""
  | [a] => a
  | a :: rest => a +:+ sep +:+ join sep rest
  end.

(** [range(start, stop)] over the integers. *)
Definition range (start stop : Z) : list Z := seqZ start (stop - start).

(** Exceptions.  The script names a single exception class, in
    [except MlException]; an exception object is either an instance of
    that class (or of a subclass of it) or an instance of some other
    class. *)
Inductive exn : Type :=
| MlException (message : string)
| OtherException (cls message : string).

(** [isinstance(e, MlException)]: the test the [except] clause performs. *)
Definition isinstance_MlException (e : exn) : bool :=
  match e with
  | MlException _ => true
  | OtherException _ _ => false
  end.

(** The outcome of evaluating a call: a value, or a raised exception. *)
Inductive result (A : Type) : Type :=
| Ok (a : A)
| Raise (e : exn).
Arguments Ok {A} a.
Arguments Raise {A} e.

(** ** The SDK entities, as the records of their keyword arguments *)

(** [azure.identity.DefaultAzureCredential()]. *)
Inductive Credential : Type := DefaultAzureCredential.

(** The workspace handle [ml_client] and the three properties the script
    reads from it. *)
Module MLClient.
Record t : Type := Build {
    subscription_id : string;
    resource_group_name : string;
    workspace_name : string
  }.
End MLClient.

Module AmlCompute.
Record t : Type := Build {
    name : string;
    type : string;
    size : string;
    max_instances : Z;
    idle_time_before_scale_down : Z
  }.
End AmlCompute.

Module BuildContext.
Record t : Type := Build { path : string }.
End BuildContext.

(** [version] is absent on the object the script builds and is filled in
    by the service on the registered environment it returns. *)
Module Environment.
Record t : Type := Build {
    build : BuildContext.t;
    name : string;
    description : string;
    version : option string
  }.
End Environment.

Module Input.
Record t : Type := Build { type : string; path : string }.
End Input.

(** The values the script stores in a job's [inputs] dictionary: an
    [Input], an [int], a [str], a [float] literal (kept as the rational
    the decimal literal denotes), or one of the two sweep distributions
    [Choice(values=...)] and [Uniform(min_value=..., max_value=...)]. *)
Inductive input_value : Type :=
| VInput (i : Input.t)
| VInt (n : Z)
| VStr (s : string)
| VFloat (x : Q)
| Choice (values : list Z)
| Uniform (min_value max_value : Q).

Definition is_distribution (v : input_value) : bool :=
  match v with
  | Choice _ | Uniform _ _ => true
  | _ => false
  end.

(** The job object a submission returns; the script reads its [name] and
    its [studio_url]. *)
Module Job.
Record t : Type := Build { name : string; studio_url : string }.
End Job.

Module Objective.
Record t : Type := Build { goal : string; primary_metric : string }.
End Objective.

Module SweepJobLimits.
Record t : Type := Build {
    max_total_trials : Z;
    max_concurrent_trials : Z;
    timeout : Z;
    trial_timeout : Z
  }.
End SweepJobLimits.

(** The trial of a sweep: the command component of the job it wraps. *)
Module Trial.
Record t : Type := Build {
    command : string;
    code : string;
    environment : string
  }.
End Trial.

Module Sweep.
Record t : Type := Build {
    trial : Trial.t;
    experiment_name : option string;
    inputs : gmap string input_value;
    search_space : gmap string input_value;
    compute : string;
    sampling_algorithm : string;
    objective : Objective.t;
    limits : option SweepJobLimits.t;
    display_name : option string;
    description : option string
  }.

(** [sweep_job.set_limits(max_total_trials=..., max_concurrent_trials=...,
      timeout=..., trial_timeout=...)]. *)
Definition set_limits (s : t)
      (max_total_trials max_concurrent_trials timeout trial_timeout : Z) : t :=
    Build (trial s) (experiment_name s) (inputs s) (search_space s) (compute s)
      (sampling_algorithm s) (objective s)
      (Some (SweepJobLimits.Build max_total_trials max_concurrent_trials
               timeout trial_timeout))
      (display_name s) (description s).

(** [sweep_job.display_name = v]. *)
Definition set_display_name (s : t) (v : string) : t :=
    Build (trial s) (experiment_name s) (inputs s) (search_space s) (compute s)
      (sampling_algorithm s) (objective s) (limits s) (Some v) (description s).

(** [sweep_job.description = v]. *)
Definition set_description (s : t) (v : string) : t :=
    Build (trial s) (experiment_name s) (inputs s) (search_space s) (compute s)
      (sampling_algorithm s) (objective s) (limits s) (display_name s) (Some v).
End Sweep.

Module Command.
Record t : Type := Build {
    environment : string;
    experiment_name : option string;
    code : string;
    inputs : gmap string input_value;
    command : string;
    compute : string
  }.

(** Modelled from the spec: [Command.__call__] of the [azure-ai-ml]
      library, which is not part of the repository.  [command_job(k=v, ...)]
      yields a new job: the component of the base job (command line, code,
      environment) on the same compute, with the named inputs bound to the
      given values (the spec: "parameterized instances of a base job").
      The library builds the new node from the component, which has no
      experiment name: the experiment name of the base job is not carried
      over. *)
Definition call (c : t) (kwargs : gmap string input_value) : t :=
    Build (environment c) None (code c)
      (kwargs ∪ inputs c) (command c) (compute c).

(** Modelled from the spec: [Command.sweep] of the [azure-ai-ml] library,
      which is not part of the repository.  The sweep job wraps the base
      job ("a hyperparameter sweep wrapping that job"): its trial is the
      job's command component, the inputs bound to a distribution become
      its search space, the other inputs stay its inputs, and the keyword
      arguments give the compute target, the sampling algorithm and the
      objective.  Its experiment name is that of the job it is called on. *)
Definition sweep (c : t)
      (compute sampling_algorithm primary_metric goal : string) : Sweep.t :=
    Sweep.Build
      (Trial.Build (command c) (code c) (environment c))
      (experiment_name c)
      (filter (λ kv, is_distribution kv.2 = false) (inputs c))
      (filter (λ kv, is_distribution kv.2 = true) (inputs c))
      compute sampling_algorithm
      (Objective.Build goal primary_metric)
      None None None.
End Command.

(** ** The platform

    Every call that leaves the script: the [%pip] magic of the first cell,
    the construction of the workspace handle, [os.getcwd()] and the methods
    of [ml_client].  The platform has a state of its own, of an arbitrary
    type [W]; an operation may change it, and returns a value or raises.
    (The [.result()] and [.wait()] of the two long-running compute
    operations are part of the operation.) *)
Record Platform (W : Type) : Type := {
  pip : string → W → W;
  new_MLClient :
    Credential → string → string → string → W → result MLClient.t * W;
  os_getcwd : W → result string * W;
  compute_get : string → W → result AmlCompute.t * W;
  compute_begin_create_or_update :
    AmlCompute.t → W → result AmlCompute.t * W;
  environments_create_or_update :
    Environment.t → W → result Environment.t * W;
  jobs_create_or_update : Command.t → W → result Job.t * W;
  create_or_update : Sweep.t → W → result Job.t * W;
  jobs_download : string → string → W → result unit * W;
  compute_begin_delete : string → W → result unit * W
}.
Arguments pip {W}.
Arguments new_MLClient {W}.
Arguments os_getcwd {W}.
Arguments compute_get {W}.
Arguments compute_begin_create_or_update {W}.
Arguments environments_create_or_update {W}.
Arguments jobs_create_or_update {W}.
Arguments create_or_update {W}.
Arguments jobs_download {W}.
Arguments compute_begin_delete {W}.

(** ** The transcript

    One event per statement effect, in execution order: a name bound by an
    assignment, a line printed, or a call to the platform together with
    its arguments and with what it returned or raised. *)
Inductive event : Type :=
| Assign (var : string)
| Print (text : string)
| Pip (line : string)
| NewMLClient (credential : Credential)
    (subscription_id resource_group_name workspace_name : string)
    (r : result MLClient.t)
| Getcwd (r : result string)
| ComputeGet (name : string) (r : result AmlCompute.t)
| ComputeBeginCreateOrUpdate (compute : AmlCompute.t) (r : result AmlCompute.t)
| EnvironmentsCreateOrUpdate (environment : Environment.t)
    (r : result Environment.t)
| JobsCreateOrUpdate (job : Command.t) (r : result Job.t)
| CreateOrUpdate (job : Sweep.t) (r : result Job.t)
| JobsDownload (name output_name : string) (r : result unit)
| ComputeBeginDelete (name : string) (r : result unit).

(** ** The constants and the locally built objects of the script *)

(** Cell 5. *)
Definition subscription_id : string := "FILL IN WITH YOUR AZURE ML CREDENTIALS".
Definition resource_group_name : string := "FILL IN WITH YOUR AZURE ML CREDENTIALS".
Definition workspace_name : string := "FILL IN WITH YOUR AZURE ML CREDENTIALS".

(** Cell 8. *)
Definition datastore_name : string := "workspaceartifactstore".
Definition dataset : string := "airline_20000000.parquet".

(** The f-string of cell 8. *)
Definition data_uri (ml_client : MLClient.t) : string :=
  "azureml://subscriptions/" +:+ MLClient.subscription_id ml_client
  +:+ "/resourcegroups/" +:+ MLClient.resource_group_name ml_client
  +:+ "/workspaces/" +:+ MLClient.workspace_name ml_client
  +:+ "/datastores/" +:+ datastore_name
  +:+ "/paths/" +:+ dataset.

(** Cell 12. *)
Definition gpu_compute_target : string := "rapids-cluster".

(** The [AmlCompute(...)] of the [except] branch of cell 12. *)
Definition new_gpu_target : AmlCompute.t :=
  AmlCompute.Build "rapids-cluster" "amlcompute" "STANDARD_NC12S_V3" 5 300.

(** Cells 16 and 19. *)
Definition rapids_script : string := "./train_rapids.py".
Definition azure_script : string := "./rapids_csp_azure.py".
Definition experiment_name : string := "test_rapids_aml_cluster".

(** Cell 22; [cwd] is what [os.getcwd()] returned there. *)
Definition env_docker_image (cwd : string) : Environment.t :=
  Environment.Build (BuildContext.Build cwd) "rapids-mlflow"
    "RAPIDS environment with azureml-mlflow" None.

(** Cell 25; [cwd] is what [os.getcwd()] returned there. *)
Definition command_job (cwd data_uri : string) : Command.t :=
  Command.Build
    "rapids-mlflow:1"
    (Some experiment_name)
    cwd
    {[ "data_dir" := VInput (Input.Build "uri_file" data_uri);
       "n_bins" := VInt 32;
       "compute" := VStr "single-GPU";
       "cv_folds" := VInt 5;
       "n_estimators" := VInt 100;
       "max_depth" := VInt 6;
       "max_features" := VFloat 0.3 ]}
    ("python train_rapids.py --data_dir ${{inputs.data_dir}} --n_bins ${{inputs.n_bins}} "
     +:+ "--compute ${{inputs.compute}} --cv_folds ${{inputs.cv_folds}} --n_estimators ${{inputs.n_estimators}} "
     +:+ "--max_depth ${{inputs.max_depth}}  --max_features ${{inputs.max_features}}")
    "rapids-cluster".

(** Cell 30: the keyword arguments of [command_job(...)]. *)
Definition sweep_kwargs : gmap string input_value :=
  {[ "n_estimators" := Choice (range 50 500);
     "max_depth" := Choice (range 5 19);
     "max_features" := Uniform 0.2 1.0 ]}.

Definition command_job_for_sweep (command_job : Command.t) : Command.t :=
  Command.call command_job sweep_kwargs.

(** Cell 30: [sweep_job] as it stands at the end of the cell, after
    [.sweep(...)], [set_limits] and the two attribute assignments. *)
Definition sweep_job (command_job : Command.t) : Sweep.t :=
  let sweep_job :=
    Command.sweep (command_job_for_sweep command_job)
      "rapids-cluster" "random" "Accuracy" "Maximize" in
  let sweep_job := Sweep.set_limits sweep_job 10 2 18000 3600 in
  let sweep_job := Sweep.set_display_name sweep_job "RF-rapids-sweep-job" in
  Sweep.set_description sweep_job "Run RAPIDS hyperparameter sweep job".

(** ** The script monad

    A statement runs from a platform state and the transcript so far; it
    yields a value or raises, and leaves a new state and a longer
    transcript.  A raised exception skips the statements that follow, up
    to an enclosing [try]. *)
Definition Script (W A : Type) : Type :=
  W * list event → result A * (W * list event).

#[global] Instance Script_ret {W} : MRet (Script W) :=
  λ A a s, (Ok a, s).

#[global] Instance Script_bind {W} : MBind (Script W) :=
  λ A B k m s,
    match m s with
    | (Ok a, s') => k a s'
    | (Raise e, s') => (Raise e, s')
    end.

(** A statement that only extends the transcript. *)
Definition emit {W} (e : event) : Script W unit :=
  λ '(w, t), (Ok tt, (w, (t ++ [e])%list)).

(** A call to the platform: it is recorded with its outcome. *)
Definition invoke {W R} (op : W → result R * W) (ev : result R → event) :
    Script W R :=
  λ '(w, t), let '(r, w') := op w in (r, (w', (t ++ [ev r])%list)).

(** [name = ...]: binding a name. *)
Definition assign {W} (var : string) : Script W unit := emit (Assign var).

(** [print(a, b, ..., sep=sep)]: the arguments joined by [sep], then a
    newline. *)
Definition print {W} (sep : string) (args : list string) : Script W unit :=
  emit (Print (join sep args +:+ nl)).

(** [try: body / except <class>: handler], where [catches] is the
    [isinstance] test of the clause.  An exception the clause does not
    match propagates. *)
Definition try_except {W A} (body : Script W A) (catches : exn → bool)
    (handler : Script W A) : Script W A :=
  λ s,
    match body s with
    | (Ok a, s') => (Ok a, s')
    | (Raise e, s') => if catches e then handler s' else (Raise e, s')
    end.

Section Notebook.
Context {W : Type} (P : Platform W).

(** Cell 2: [%pip show azure-ai-ml]. *)
Definition cell_2 : Script W unit :=
  λ '(w, t), (Ok tt, (pip P "show azure-ai-ml" w, (t ++ [Pip "show azure-ai-ml"])%list)).

(** Cell 5: the workspace handle. *)
Definition cell_5 : Script W MLClient.t :=
  assign "subscription_id";;
  assign "resource_group_name";;
  assign "workspace_name";;
  ml_client ← invoke
    (new_MLClient P DefaultAzureCredential
       subscription_id resource_group_name workspace_name)
    (NewMLClient DefaultAzureCredential
       subscription_id resource_group_name workspace_name);
  assign "ml_client";;
  print nl
    [ "Workspace name: " +:+ MLClient.workspace_name ml_client;
      "Subscription id: " +:+ MLClient.subscription_id ml_client;
      "Resource group: " +:+ MLClient.resource_group_name ml_client ];;
  mret ml_client.

(** Cell 8: the datastore URI. *)
Definition cell_8 (ml_client : MLClient.t) : Script W string :=
  assign "datastore_name";;
  assign "dataset";;
  assign "data_uri";;
  print " " [ "data uri:"; nl; data_uri ml_client ];;
  mret (data_uri ml_client).

(** Cell 12: look the compute target up; create it when the lookup raises
    [MlException]. *)
Definition cell_12 : Script W AmlCompute.t :=
  assign "gpu_compute_target";;
  try_except
    (gpu_target ← invoke (compute_get P gpu_compute_target)
                     (ComputeGet gpu_compute_target);
     assign "gpu_target";;
     print " " [ "found compute target. Will use " +:+ gpu_compute_target ];;
     mret gpu_target)
    isinstance_MlException
    (print " " [ "Creating a new gpu compute target..." ];;
     assign "gpu_target";;
     invoke (compute_begin_create_or_update P new_gpu_target)
       (ComputeBeginCreateOrUpdate new_gpu_target);;
     print " "
       [ "AMLCompute with name " +:+ AmlCompute.name new_gpu_target
         +:+ " is created, the compute size is "
         +:+ AmlCompute.size new_gpu_target ];;
     mret new_gpu_target).

(** Cells 16 and 19. *)
Definition cell_16_19 : Script W unit :=
  assign "rapids_script";;
  assign "azure_script";;
  assign "experiment_name".

(** Cell 22: build and register the container environment. *)
Definition cell_22 : Script W Environment.t :=
  cwd ← invoke (os_getcwd P) Getcwd;
  assign "env_docker_image";;
  invoke (environments_create_or_update P (env_docker_image cwd))
    (EnvironmentsCreateOrUpdate (env_docker_image cwd)).

(** Cell 25: the training job and its submission.  The last line of the
    cell only reads [returned_job.studio_url]. *)
Definition cell_25 (data_uri : string) : Script W (Command.t * Job.t) :=
  cwd ← invoke (os_getcwd P) Getcwd;
  assign "command_job";;
  returned_job ← invoke (jobs_create_or_update P (command_job cwd data_uri))
                   (JobsCreateOrUpdate (command_job cwd data_uri));
  assign "returned_job";;
  mret (command_job cwd data_uri, returned_job).

(** Cell 30: the sweep over the training job, built locally. *)
Definition cell_30 (command_job : Command.t) : Script W Sweep.t :=
  assign "command_job_for_sweep";;
  assign "sweep_job";;
  mret (sweep_job command_job).

(** Cell 32: submit the sweep. *)
Definition cell_32 (sweep_job : Sweep.t) : Script W Job.t :=
  returned_sweep_job ← invoke (create_or_update P sweep_job)
                         (CreateOrUpdate sweep_job);
  assign "returned_sweep_job";;
  mret returned_sweep_job.

(** Cell 34: the monitoring URL. *)
Definition cell_34 (returned_sweep_job : Job.t) : Script W unit :=
  assign "aml_url";;
  print " " [ "Monitor your job at"; Job.studio_url returned_sweep_job ].

(** Cell 37: download the model output of the sweep. *)
Definition cell_37 (returned_sweep_job : Job.t) : Script W unit :=
  invoke (jobs_download P (Job.name returned_sweep_job) "model")
    (JobsDownload (Job.name returned_sweep_job) "model").

(** Cell 39: delete the cluster. *)
Definition cell_39 : Script W unit :=
  invoke (compute_begin_delete P gpu_compute_target)
    (ComputeBeginDelete gpu_compute_target).

(** The notebook: its code cells in order, sharing their variables. *)
Definition notebook : Script W unit :=
  cell_2;;
  ml_client ← cell_5;
  data_uri ← cell_8 ml_client;
  gpu_target ← cell_12;
  cell_16_19;;
  cell_22;;
  '(command_job, returned_job) ← cell_25 data_uri;
  sweep_job ← cell_30 command_job;
  returned_sweep_job ← cell_32 sweep_job;
  cell_34 returned_sweep_job;;
  cell_37 returned_sweep_job;;
  cell_39.

(** One execution, from a platform state and an empty transcript. *)
Definition run (w : W) : result unit * (W * list event) := notebook (w, []).

(** What the execution ended with, and its transcript. *)
Definition outcome (w : W) : result unit := (run w).1.
Definition trace (w : W) : list event := (run w).2.2.

End Notebook.

Arguments data_uri : simpl never.
Arguments env_docker_image : simpl never.
Arguments command_job : simpl never.
Arguments sweep_job : simpl never.

(** ** Reading a transcript *)

(** The exception a platform call raised, if it raised. *)
Definition raised (e : event) : option exn :=
  match e with
  | NewMLClient _ _ _ _ (Raise x) | Getcwd (Raise x) | ComputeGet _ (Raise x)
  | ComputeBeginCreateOrUpdate _ (Raise x)
  | EnvironmentsCreateOrUpdate _ (Raise x) | JobsCreateOrUpdate _ (Raise x)
  | CreateOrUpdate _ (Raise x) | JobsDownload _ _ (Raise x)
  | ComputeBeginDelete _ (Raise x) => Some x
  | _ => None
  end.

(** The workspace handles and the working directories the platform
    returned. *)
Definition handles (t : list event) : list MLClient.t :=
  omap (λ e, match e with NewMLClient _ _ _ _ (Ok h) => Some h | _ => None end) t.

Definition cwds (t : list event) : list string :=
  omap (λ e, match e with Getcwd (Ok d) => Some d | _ => None end) t.

(** The lines printed. *)
Definition prints (t : list event) : list string :=
  omap (λ e, match e with Print s => Some s | _ => None end) t.

(** The lookups of a compute target with their outcomes, the clusters
    whose creation was requested, and the clusters whose deletion was
    requested. *)
Definition lookups (t : list event) : list (string * result AmlCompute.t) :=
  omap (λ e, match e with ComputeGet n r => Some (n, r) | _ => None end) t.

Definition creations (t : list event) : list AmlCompute.t :=
  omap (λ e, match e with
             | ComputeBeginCreateOrUpdate c _ => Some c
             | _ => None
             end) t.

Definition deletions (t : list event) : list string :=
  omap (λ e, match e with ComputeBeginDelete n _ => Some n | _ => None end) t.

(** Whether the execution asked for a new cluster. *)
Definition created (t : list event) : bool :=
  match creations t with
  | [] => false
  | _ :: _ => true
  end.

(** The environments registered: the one sent and the answer. *)
Definition registrations (t : list event) :
    list (Environment.t * result Environment.t) :=
  omap (λ e, match e with
             | EnvironmentsCreateOrUpdate e r => Some (e, r)
             | _ => None
             end) t.

(** The environments the platform registered, and the versioned
    reference [name:version] of a registered environment. *)
Definition registered (t : list event) : list Environment.t :=
  omap (λ e, match e with
             | EnvironmentsCreateOrUpdate _ (Ok r) => Some r
             | _ => None
             end) t.

Definition reference (e : Environment.t) : string :=
  Environment.name e +:+ ":" +:+ default "" (Environment.version e).

(** The training jobs and the sweep jobs handed to the platform, and the
    job objects the sweep submissions returned. *)
Definition submitted_jobs (t : list event) : list Command.t :=
  omap (λ e, match e with JobsCreateOrUpdate j _ => Some j | _ => None end) t.

Definition submitted_sweeps (t : list event) : list Sweep.t :=
  omap (λ e, match e with CreateOrUpdate s _ => Some s | _ => None end) t.

Definition returned_sweep_jobs (t : list event) : list Job.t :=
  omap (λ e, match e with CreateOrUpdate _ (Ok r) => Some r | _ => None end) t.


(** The compute target an event names, if it names one. *)
Definition compute_target_of (e : event) : option string :=
  match e with
  | ComputeGet n _ => Some n
  | ComputeBeginCreateOrUpdate c _ => Some (AmlCompute.name c)
  | JobsCreateOrUpdate j _ => Some (Command.compute j)
  | CreateOrUpdate s _ => Some (Sweep.compute s)
  | ComputeBeginDelete n _ => Some n
  | _ => None
  end.

(** The line printed when the lookup finds the cluster. *)
Definition found_message : string :=
  "found compute target. Will use rapids-cluster" +:+ nl.

(** The fate of an exception [x] raised by the call [e], [post] being what
    the execution did after [e] and [o] its outcome: either nothing
    follows the call and [x] is the outcome, or [e] is the lookup, [x] is
    an [MlException], and the [except] branch follows. *)
Definition ends_or_is_caught (o : result unit) (e : event)
    (post : list event) (x : exn) : Prop :=
  (post = [] ∧ o = Raise x) ∨
  (e = ComputeGet gpu_compute_target (Raise x) ∧
   isinstance_MlException x = true ∧
   ∃ post', post = Print ("Creating a new gpu compute target..." +:+ nl) :: post').

(** *** Requests

    The platform calls of a transcript without their outcomes: what the
    script passed out. *)
Inductive request : Type :=
| RPip (line : string)
| RNewMLClient (credential : Credential)
    (subscription_id resource_group_name workspace_name : string)
| RGetcwd
| RComputeGet (name : string)
| RComputeBeginCreateOrUpdate (compute : AmlCompute.t)
| REnvironmentsCreateOrUpdate (environment : Environment.t)
| RJobsCreateOrUpdate (job : Command.t)
| RCreateOrUpdate (job : Sweep.t)
| RJobsDownload (name output_name : string)
| RComputeBeginDelete (name : string).

Definition request_of (e : event) : option request :=
  match e with
  | Assign _ | Print _ => None
  | Pip line => Some (RPip line)
  | NewMLClient c s r n _ => Some (RNewMLClient c s r n)
  | Getcwd _ => Some RGetcwd
  | ComputeGet n _ => Some (RComputeGet n)
  | ComputeBeginCreateOrUpdate c _ => Some (RComputeBeginCreateOrUpdate c)
  | EnvironmentsCreateOrUpdate e _ => Some (REnvironmentsCreateOrUpdate e)
  | JobsCreateOrUpdate j _ => Some (RJobsCreateOrUpdate j)
  | CreateOrUpdate j _ => Some (RCreateOrUpdate j)
  | JobsDownload n o _ => Some (RJobsDownload n o)
  | ComputeBeginDelete n _ => Some (RComputeBeginDelete n)
  end.

Definition requests (t : list event) : list request := omap request_of t.

(** The job names of the download requests. *)
Definition download_names (qs : list request) : list string :=
  omap (λ q, match q with RJobsDownload n _ => Some n | _ => None end) qs.

(** Where the arguments of a request come from, in an execution with
    transcript [t]: the literals of the script, the fields of the
    workspace handle, a working directory [os.getcwd()] returned, and, for
    the download, the sweep job the platform returned. *)
Definition built_from (t : list event) (q : request) : Prop :=
  match q with
  | RPip line => line = "show azure-ai-ml"
  | RNewMLClient c s r n =>
      c = DefaultAzureCredential ∧ s = subscription_id ∧
      r = resource_group_name ∧ n = workspace_name
  | RGetcwd => True
  | RComputeGet n => n = gpu_compute_target
  | RComputeBeginCreateOrUpdate c => c = new_gpu_target
  | REnvironmentsCreateOrUpdate e =>
      ∃ cwd, cwd ∈ cwds t ∧ e = env_docker_image cwd
  | RJobsCreateOrUpdate j =>
      ∃ cwd h, cwd ∈ cwds t ∧ h ∈ handles t ∧ j = command_job cwd (data_uri h)
  | RCreateOrUpdate s =>
      ∃ cwd h, cwd ∈ cwds t ∧ h ∈ handles t ∧
               s = sweep_job (command_job cwd (data_uri h))
  | RJobsDownload n o =>
      o = "model" ∧ ∃ r, r ∈ returned_sweep_jobs t ∧ n = Job.name r
  | RComputeBeginDelete n => n = gpu_compute_target
  end.

(** *** Steps

    The steps of the flow, and the event that marks each: the platform
    call of the step or, for the steps that make no call, the binding of
    the name that holds the result ([data_uri], [sweep_job], and
    [aml_url] for the cell that reads the status URL of the sweep and
    prints it). *)
Inductive step : Type :=
| ObtainWorkspaceHandle
| ResolveDatasetURI
| LookupCompute
| CreateCompute
| BuildEnvironment
| SubmitTrainingJob
| DefineSweep
| SubmitSweep
| PrintMonitoringURL
| DownloadArtifact
| TearDownCluster.

Definition step_of (e : event) : option step :=
  match e with
  | NewMLClient _ _ _ _ _ => Some ObtainWorkspaceHandle
  | Assign "data_uri" => Some ResolveDatasetURI
  | ComputeGet _ _ => Some LookupCompute
  | ComputeBeginCreateOrUpdate _ _ => Some CreateCompute
  | EnvironmentsCreateOrUpdate _ _ => Some BuildEnvironment
  | JobsCreateOrUpdate _ _ => Some SubmitTrainingJob
  | Assign "sweep_job" => Some DefineSweep
  | CreateOrUpdate _ _ => Some SubmitSweep
  | Assign "aml_url" => Some PrintMonitoringURL
  | JobsDownload _ _ _ => Some DownloadArtifact
  | ComputeBeginDelete _ _ => Some TearDownCluster
  | _ => None
  end.

Definition steps (t : list event) : list step := omap step_of t.

(** The flow of the specification; get-or-create is the lookup, followed
    by the creation when [created]. *)
Definition flow (created : bool) : list step :=
  [ObtainWorkspaceHandle; ResolveDatasetURI; LookupCompute]
  ++ (if created then [CreateCompute] else [])
  ++ [BuildEnvironment; SubmitTrainingJob; DefineSweep; SubmitSweep;
      PrintMonitoringURL; DownloadArtifact; TearDownCluster].

(** What an execution does between the submission of the sweep and the
    download: the events after the first sweep submission, up to the
    first download. *)
Fixpoint after_submission (t : list event) : list event :=
  match t with
  | [] => []
  | CreateOrUpdate _ _ :: t' => t'
  | _ :: t' => after_submission t'
  end.

Fixpoint before_download (t : list event) : list event :=
  match t with
  | [] => []
  | JobsDownload _ _ _ :: _ => []
  | e :: t' => e :: before_download t'
  end.

Definition monitoring (t : list event) : list event :=
  before_download (after_submission t).

(** [Forall_split Q pre l]: [Q] holds of every way of cutting [l] at one
    of its elements, [pre] being what precedes [l]. *)
Fixpoint Forall_split {A} (Q : list A → A → list A → Prop)
    (pre l : list A) : Prop :=
  match l with
  | [] => True
  | a :: post => Q pre a post ∧ Forall_split Q (pre ++ [a]) post
  end.

(** A job whose inputs are all plain values: none is a sweep
    distribution. *)
Definition plain_inputs (c : Command.t) : Prop :=
  ∀ k v, Command.inputs c !! k = Some v → is_distribution v = false.

(** ** Example platforms

    A workspace as the script expects it: the lookup of the cluster
    returns it or raises an [MlException] (the platform state says
    which), and every other call succeeds. *)
Definition demo (handle : MLClient.t) (cwd env_version sweep_name : string) :
    Platform bool :=
  {| pip := λ _ w, w;
     new_MLClient := λ _ _ _ _ w, (Ok handle, w);
     os_getcwd := λ w, (Ok cwd, w);
     compute_get := λ name (w : bool),
       if w then (Ok (AmlCompute.Build name "amlcompute" "STANDARD_NC12S_V3" 5 300), w)
       else (Raise (MlException "compute target could not be resolved"), w);
     compute_begin_create_or_update := λ c _, (Ok c, true);
     environments_create_or_update := λ e w,
       (Ok (Environment.Build (Environment.build e) (Environment.name e)
              (Environment.description e) (Some env_version)), w);
     jobs_create_or_update := λ _ w,
       (Ok (Job.Build "zen_eye_lm7dcp68jz"
              "https://ml.azure.com/runs/zen_eye_lm7dcp68jz"), w);
     create_or_update := λ _ w,
       (Ok (Job.Build sweep_name ("https://ml.azure.com/runs/" +:+ sweep_name)), w);
     jobs_download := λ _ _ w, (Ok tt, w);
     compute_begin_delete := λ _ _, (Ok tt, false) |}.

Definition demo_handle : MLClient.t :=
  MLClient.Build "fc4f4a6b-4041-4b1c-8249-854d68edcf62" "rapidsai-deployment"
    "rapids-aml-cluster".

Definition demo_cwd : string :=
  "/mnt/batch/tasks/shared/LS_root/mounts/clusters/skirui1/code".

(** The workspace of the outputs recorded in the notebook: the environment
    registered there got version 10. *)
Definition recorded : Platform bool :=
  demo demo_handle demo_cwd "10" "eager_turtle_r7fs2xzcty".

(** The same workspace, the notebook being run from another directory. *)
Definition moved : Platform bool :=
  demo demo_handle "/home/azureuser/rapids" "10" "eager_turtle_r7fs2xzcty".

(** The same workspace, the sweep getting another name. *)
Definition renamed : Platform bool :=
  demo demo_handle demo_cwd "10" "brave_fox_1x2y3z".

(** The same workspace, the registration of the environment yielding
    version 1. *)
Definition first_registration : Platform bool :=
  demo demo_handle demo_cwd "1" "eager_turtle_r7fs2xzcty".

(** A workspace whose compute service is unreachable: the lookup raises
    an exception that is not an [MlException]. *)
Definition unreachable : Platform bool :=
  {| pip := pip recorded;
     new_MLClient := new_MLClient recorded;
     os_getcwd := os_getcwd recorded;
     compute_get := λ _ (w : bool),
       (Raise (OtherException "ServiceRequestError" "connection refused"), w);
     compute_begin_create_or_update := compute_begin_create_or_update recorded;
     environments_create_or_update := environments_create_or_update recorded;
     jobs_create_or_update := jobs_create_or_update recorded;
     create_or_update := create_or_update recorded;
     jobs_download := jobs_download recorded;
     compute_begin_delete := compute_begin_delete recorded |}.

(** The exception the [azure-ai-ml] library raises when the resource asked
    for does not exist: [azure.core.exceptions.ResourceNotFoundError],
    which is not an [MlException] nor a subclass of it. *)
Definition not_found : exn :=
  OtherException "ResourceNotFoundError"
    "The Resource 'Microsoft.MachineLearningServices/workspaces/rapids-aml-cluster/computes/rapids-cluster' under resource group 'rapidsai-deployment' was not found.".

(** The workspace of the recorded outputs, answering the lookup as the
    library does: it returns the cluster when there is one (the platform
    state says so), and raises [not_found] when there is none. *)
Definition absent : Platform bool :=
  {| pip := pip recorded;
     new_MLClient := new_MLClient recorded;
     os_getcwd := os_getcwd recorded;
     compute_get := λ name (w : bool),
       if w then compute_get recorded name w else (Raise not_found, w);
     compute_begin_create_or_update := compute_begin_create_or_update recorded;
     environments_create_or_update := environments_create_or_update recorded;
     jobs_create_or_update := jobs_create_or_update recorded;
     create_or_update := create_or_update recorded;
     jobs_download := jobs_download recorded;
     compute_begin_delete := compute_begin_delete recorded |}.

(** The same workspace, the cluster being there, and the lookup raising
    an [MlException] that does not say that the cluster is missing. *)
Definition misconfigured : Platform bool :=
  {| pip := pip recorded;
     new_MLClient := new_MLClient recorded;
     os_getcwd := os_getcwd recorded;
     compute_get := λ _ (w : bool),
       (Raise (MlException "no compute schema for the type of rapids-cluster"), w);
     compute_begin_create_or_update := compute_begin_create_or_update recorded;
     environments_create_or_update := environments_create_or_update recorded;
     jobs_create_or_update := jobs_create_or_update recorded;
     create_or_update := create_or_update recorded;
     jobs_download := jobs_download recorded;
     compute_begin_delete := compute_begin_delete recorded |}.

(** The jobs of the recorded execution. *)
Definition recorded_job : Command.t :=
  command_job demo_cwd (data_uri demo_handle).
Definition recorded_sweep : Sweep.t := sweep_job recorded_job.

(** ** Further readings of a transcript *)

(** The outcomes of the downloads and of the deletions requested. *)
Definition download_outcomes (t : list event) : list (result unit) :=
  omap (λ e, match e with JobsDownload _ _ r => Some r | _ => None end) t.

Definition deletion_outcomes (t : list event) : list (result unit) :=
  omap (λ e, match e with ComputeBeginDelete _ r => Some r | _ => None end) t.

(** The number of places of [s] at which [sub] occurs, and whether it
    occurs at all. *)
Fixpoint occurrences (sub s : string) : nat :=
  match s with
  | EmptyString => if String.prefix sub EmptyString then 1%nat else 0%nat
  | String _ s' =>
      ((if String.prefix sub s then 1 else 0) + occurrences sub s')%nat
  end.

Definition contains (sub s : string) : bool :=
  bool_decide (occurrences sub s ≠ 0%nat).

(** The flag the command line of the training script has for the input
    [k]: [--k ${{inputs.k}}]. *)
Definition flag (k : string) : string :=
  "--" +:+ k +:+ " ${{inputs." +:+ k +:+ "}}".

(** A workspace in which the download fails. *)
Definition download_fails : Platform bool :=
  {| pip := pip recorded;
     new_MLClient := new_MLClient recorded;
     os_getcwd := os_getcwd recorded;
     compute_get := compute_get recorded;
     compute_begin_create_or_update := compute_begin_create_or_update recorded;
     environments_create_or_update := environments_create_or_update recorded;
     jobs_create_or_update := jobs_create_or_update recorded;
     create_or_update := create_or_update recorded;
     jobs_download := λ _ _ (w : bool),
       (Raise (OtherException "JobException" "the job has not completed"), w);
     compute_begin_delete := compute_begin_delete recorded |}.

(** A session whose working directory changes between the cell that
    builds the environment and the cell that builds the training job; the
    state counts the calls of [os.getcwd()]. *)
Definition wandering : Platform nat :=
  {| pip := λ _ w, w;
     new_MLClient := λ _ _ _ _ w, (Ok demo_handle, w);
     os_getcwd := λ w,
       (Ok (match w with O => "/home/azureuser/docker" | _ => "/home/azureuser/code" end),
        S w);
     compute_get := λ name w,
       (Ok (AmlCompute.Build name "amlcompute" "STANDARD_NC12S_V3" 5 300), w);
     compute_begin_create_or_update := λ c w, (Ok c, w);
     environments_create_or_update := λ e w, (Ok e, w);
     jobs_create_or_update := λ _ w,
       (Ok (Job.Build "zen_eye_lm7dcp68jz"
              "https://ml.azure.com/runs/zen_eye_lm7dcp68jz"), w);
     create_or_update := λ _ w,
       (Ok (Job.Build "eager_turtle_r7fs2xzcty"
              "https://ml.azure.com/runs/eager_turtle_r7fs2xzcty"), w);
     jobs_download := λ _ _ w, (Ok tt, w);
     compute_begin_delete := λ _ w, (Ok tt, w) |}.

(** What an execution does between the submission of the training job
    and the submission of the sweep. *)
Fixpoint after_job (t : list event) : list event :=
  match t with
  | [] => []
  | JobsCreateOrUpdate _ _ :: t' => t'
  | _ :: t' => after_job t'
  end.

Fixpoint before_sweep (t : list event) : list event :=
  match t with
  | [] => []
  | CreateOrUpdate _ _ :: _ => []
  | e :: t' => e :: before_sweep t'
  end.

(** * Properties of the script *)

(** ** Symbolic execution

    An execution is decided by what the platform answers to each call.
    [execute] unfolds the script and splits on every answer, which leaves
    one goal per way the script can end, each about an explicit
    transcript. *)
Ltac unfold_script :=
  unfold trace, outcome, run, notebook, cell_2, cell_5, cell_8, cell_12,
    cell_16_19, cell_22, cell_25, cell_30, cell_32, cell_34, cell_37, cell_39,
    try_except, print, assign, invoke, emit;
  unfold mbind, mret, Script_bind, Script_ret; cbn.

Ltac split_on x := destruct x as [[?|?] ?] eqn:?; cbn.

Ltac split_answer :=
  match goal with
  | |- context [new_MLClient ?P ?c ?a1 ?a2 ?a3 ?w] =>
      split_on (new_MLClient P c a1 a2 a3 w)
  | |- context [os_getcwd ?P ?w] => split_on (os_getcwd P w)
  | |- context [compute_get ?P ?n ?w] => split_on (compute_get P n w)
  | |- context [compute_begin_create_or_update ?P ?c ?w] =>
      split_on (compute_begin_create_or_update P c w)
  | |- context [environments_create_or_update ?P ?e ?w] =>
      split_on (environments_create_or_update P e w)
  | |- context [jobs_create_or_update ?P ?j ?w] =>
      split_on (jobs_create_or_update P j w)
  | |- context [create_or_update ?P ?j ?w] => split_on (create_or_update P j w)
  | |- context [jobs_download ?P ?n ?o ?w] => split_on (jobs_download P n o w)
  | |- context [compute_begin_delete ?P ?n ?w] =>
      split_on (compute_begin_delete P n w)
  | |- context [isinstance_MlException ?e] => destruct e; cbn
  end.

Ltac execute P w :=
  unfold trace, outcome;
  let Hrun := fresh "Hrun" in
  destruct (run P w) as [? [? ?]] eqn:Hrun; cbn [fst snd];
  revert Hrun; unfold_script; repeat split_answer;
  intros Hrun; injection Hrun as <- <- <-.

(** Membership in an explicit list. *)
Ltac elem_now :=
  solve [repeat first [apply list_elem_of_here | apply list_elem_of_further]].

Ltac split_all :=
  repeat match goal with
         | |- _ ∧ _ => split
         | |- True => exact I
         end.

(** ** Cutting a transcript *)

Lemma Forall_split_cut_from {A} (Q : list A → A → list A → Prop) l :
  ∀ p, Forall_split Q p l →
  ∀ pre a post, l = (pre ++ a :: post)%list → Q (p ++ pre)%list a post.
Proof.
  induction l as [|b l IH]; intros p H pre a post Heq.
  - destruct pre; discriminate.
  - destruct H as [Hb Hl]. destruct pre as [|b' pre]; simplify_eq/=.
    + by rewrite app_nil_r.
    + specialize (IH _ Hl _ _ _ eq_refl).
      by rewrite <- app_assoc in IH.
Qed.

Lemma Forall_split_cut {A} (Q : list A → A → list A → Prop) l :
  Forall_split Q [] l →
  ∀ pre a post, l = (pre ++ a :: post)%list → Q pre a post.
Proof.
  intros H pre a post Heq.
  exact (Forall_split_cut_from Q l [] H pre a post Heq).
Qed.

(** A non-empty explicit list, cut at its last element. *)
Ltac cut_last :=
  lazymatch goal with
  | |- ∃ pre e, ?l = _ ∧ _ =>
      let le := eval cbn in (last l) in
      lazymatch le with
      | Some ?e0 =>
          let pre := fresh "pre" in
          let Hpre := fresh "Hpre" in
          destruct (proj1 (last_Some l e0) eq_refl) as [pre Hpre];
          exists pre, e0; split; [exact Hpre|reflexivity]
      end
  end.

(** ** The shape of what is submitted *)

Section Shapes.
Context {W : Type} (P : Platform W) (w : W).

(** The training job the script submits: built from the handle and the
    working directory the platform returned, and submitted once. *)
Lemma job_shape j :
  j ∈ submitted_jobs (trace P w) →
  ∃ h c1 c2,
    handles (trace P w) = [h] ∧ cwds (trace P w) = [c1; c2] ∧
    j = command_job c2 (data_uri h) ∧ submitted_jobs (trace P w) = [j].
Proof.
  execute P w; unfold submitted_jobs, handles, cwds; cbn; intros Hj;
    decompose_list_elem_of; simplify_eq; eauto 10.
Qed.

(** The sweep job the script submits: the sweep over the training job
    submitted before it, and submitted once. *)
Lemma sweep_shape s :
  s ∈ submitted_sweeps (trace P w) →
  ∃ j, submitted_jobs (trace P w) = [j] ∧ s = sweep_job j ∧
       submitted_sweeps (trace P w) = [s].
Proof.
  execute P w; unfold submitted_jobs, submitted_sweeps; cbn; intros Hs;
    decompose_list_elem_of; simplify_eq; eauto 10.
Qed.

(** Every request is built from literals, the handle, a working directory
    and, for the download, the returned sweep job. *)
Lemma requests_built_from q :
  q ∈ requests (trace P w) → built_from (trace P w) q.
Proof.
  execute P w; intros Hq; unfold requests in Hq; cbn in Hq;
    decompose_list_elem_of; subst q; cbn [built_from];
    unfold cwds, handles, returned_sweep_jobs; cbn;
    first
      [ done
      | eexists; split; [|reflexivity]; elem_now
      | eexists _, _; split; [|split; [|reflexivity]]; elem_now
      | split; [reflexivity|eexists; split; [|reflexivity]; elem_now] ].
Qed.

(** The environment the script registers. *)
Lemma registration_shape e r :
  (e, r) ∈ registrations (trace P w) → ∃ cwd, e = env_docker_image cwd.
Proof.
  execute P w; unfold registrations; cbn; intros He;
    decompose_list_elem_of; simplify_eq; eauto.
Qed.

End Shapes.

(** ** The sweep derived from a job *)

Lemma command_job_plain cwd uri : plain_inputs (command_job cwd uri).
Proof.
  intros k v. unfold command_job; cbn [Command.inputs]. intros H.
  repeat (apply lookup_insert_Some in H as [[_ <-]|[_ H]]; [done|]).
  apply lookup_singleton_Some in H as [_ <-]. done.
Qed.

Lemma sweep_kwargs_distributions k v :
  sweep_kwargs !! k = Some v → is_distribution v = true.
Proof.
  unfold sweep_kwargs. intros H.
  repeat (apply lookup_insert_Some in H as [[_ <-]|[_ H]]; [done|]).
  apply lookup_singleton_Some in H as [_ <-]. done.
Qed.

(** The search space of the sweep is exactly the keyword arguments. *)
Lemma sweep_job_search_space c :
  plain_inputs c → Sweep.search_space (sweep_job c) = sweep_kwargs.
Proof.
  intros Hc.
  unfold sweep_job, command_job_for_sweep, Command.sweep, Command.call; cbn.
  apply map_eq; intros k. rewrite map_lookup_filter, lookup_union.
  destruct (sweep_kwargs !! k) as [v|] eqn:Hk; cbn.
  - pose proof (sweep_kwargs_distributions _ _ Hk).
    destruct (Command.inputs c !! k); cbn; case_guard; done.
  - destruct (Command.inputs c !! k) as [v|] eqn:Hi; cbn; [|done].
    pose proof (Hc _ _ Hi). case_guard; [congruence|done].
Qed.


Lemma range_spec (start stop z : Z) :
  z ∈ range start stop ↔ (start ≤ z < stop)%Z.
Proof. unfold range. rewrite elem_of_seqZ. lia. Qed.

(** ** The recorded execution

    The lines the model prints against the workspace of the recorded
    outputs are the lines recorded in the notebook. *)
Example recorded_prints :
  take 3 (prints (trace recorded true)) =
  [ "Workspace name: rapids-aml-cluster
Subscription id: fc4f4a6b-4041-4b1c-8249-854d68edcf62
Resource group: rapidsai-deployment
";
    "data uri: 
 azureml://subscriptions/fc4f4a6b-4041-4b1c-8249-854d68edcf62/resourcegroups/rapidsai-deployment/workspaces/rapids-aml-cluster/datastores/workspaceartifactstore/paths/airline_20000000.parquet
";
    "found compute target. Will use rapids-cluster
" ].
Proof. reflexivity. Qed.

Example recorded_steps : steps (trace recorded true) = flow false.
Proof. reflexivity. Qed.

Example recorded_steps_fresh : steps (trace recorded false) = flow true.
Proof. reflexivity. Qed.

(** Against [first_registration] the reference of the job designates the
    environment just registered; against [recorded] it does not. *)
Example first_registration_referenced :
  reference <$> registered (trace first_registration true)
  = Command.environment <$> submitted_jobs (trace first_registration true).
Proof. reflexivity. Qed.

Example recorded_not_referenced :
  reference <$> registered (trace recorded true) = ["rapids-mlflow:10"] ∧
  Command.environment <$> submitted_jobs (trace recorded true)
  = ["rapids-mlflow:1"].
Proof. split; reflexivity. Qed.

Example unreachable_outcome :
  outcome unreachable true =
    Raise (OtherException "ServiceRequestError" "connection refused") ∧
  steps (trace unreachable true) =
    [ObtainWorkspaceHandle; ResolveDatasetURI; LookupCompute].
Proof. split; reflexivity. Qed.

(** ** The properties of the specification *)

(** The four parts of the handling of the lookup, on an explicit
    transcript. *)
Ltac lookup_returned :=
  split; [intros [c Hc]|intros [Hc Hn]];
  decompose_list_elem_of; simplify_eq;
  first [ split; [elem_now|reflexivity] | eexists; elem_now ].

Ltac lookup_raised :=
  split; [intros (x & Hx & Hc)|intros Hc];
  decompose_list_elem_of; simplify_eq;
  first [ reflexivity | eexists; split; [|elem_now]; reflexivity ].

Ltac exception_fate :=
  let He := fresh "He" in
  let Hx := fresh "Hx" in
  let Hcheck := fresh "Hcheck" in
  intros ? ? ? ? He Hx;
  match type of He with
  | ?l = _ =>
      match goal with
      | |- ends_or_is_caught ?o _ _ _ =>
          assert (Forall_split
                    (λ _ e post,
                       match raised e with
                       | Some x => ends_or_is_caught o e post x
                       | None => True
                       end) [] l) as Hcheck
            by (cbn [Forall_split raised]; split_all;
                first
                  [ left; split; reflexivity
                  | right; split;
                      [reflexivity|split; [reflexivity|eexists; reflexivity]] ])
      end
  end;
  pose proof (Forall_split_cut _ _ Hcheck _ _ _ He) as Hcut;
  cbn beta in Hcut; rewrite Hx in Hcut; exact Hcut.

Ltac failed_at_last_call :=
  let Hx := fresh "Hx" in
  intros ? Hx; simplify_eq; cut_last.

(** The lookup of the compute target is the script's only error
    handling, and what it catches is decided by the class of the
    exception alone.  The lookup having returned a cluster is equivalent
    to the script going on with it (it prints that it found the target,
    and asks for no creation); the lookup having raised an
    [MlException], whatever it reports, is equivalent to the script
    asking for the creation of the new cluster.  Every other exception a
    call raises ends the execution and is its outcome, and an execution
    only fails with an exception a call raised: nothing else is caught. *)
Lemma cluster_lookup_handling {W} (P : Platform W) (w : W) :
  ((∃ c, (gpu_compute_target, Ok c) ∈ lookups (trace P w)) ↔
     found_message ∈ prints (trace P w) ∧ creations (trace P w) = []) ∧
  ((∃ x, isinstance_MlException x = true ∧
         (gpu_compute_target, Raise x) ∈ lookups (trace P w)) ↔
     creations (trace P w) = [new_gpu_target]) ∧
  (∀ pre e post x,
     trace P w = (pre ++ e :: post)%list → raised e = Some x →
     ends_or_is_caught (outcome P w) e post x) ∧
  (∀ x, outcome P w = Raise x →
     ∃ pre e, trace P w = (pre ++ [e])%list ∧ raised e = Some x).
Proof.
  execute P w;
    unfold lookups, creations, prints, found_message; cbn;
    (split; [lookup_returned|split; [lookup_raised|split;
       [exception_fate|failed_at_last_call]]]).
Qed.

Example cluster_lookup_handling_recorded :
  (gpu_compute_target,
   Raise (MlException "compute target could not be resolved"))
    ∈ lookups (trace recorded false) ∧
  creations (trace recorded false) = [new_gpu_target].
Proof.
  assert ((gpu_compute_target,
           Raise (MlException "compute target could not be resolved"))
            ∈ lookups (trace recorded false)) as Hl
    by (vm_compute; left).
  split; [exact Hl|].
  apply (proj1 (proj1 (proj2 (cluster_lookup_handling recorded false)))).
  eexists. split; [|exact Hl]. reflexivity.
Qed.

(** C1, evaluated where the cluster does not exist.  The specification
    has the script create the cluster exactly when the lookup reports
    that it is not found.  The library reports a missing cluster by
    raising [ResourceNotFoundError], which is not an [MlException]: the
    except clause does not catch it.  In the workspace [absent], the
    cluster not being there, the lookup is made and raises [not_found],
    the execution ends there with [not_found] as its outcome, nothing is
    printed about a creation and no creation is requested.  And what the
    clause does catch need not be a not-found condition: in the
    workspace [misconfigured], where the cluster is there and the lookup
    raises another [MlException], the script asks for the creation of
    the cluster and goes on to the end. *)
Theorem C1_not_found_is_not_caught :
  lookups (trace absent false) = [(gpu_compute_target, Raise not_found)] ∧
  isinstance_MlException not_found = false ∧
  outcome absent false = Raise not_found ∧
  creations (trace absent false) = [] ∧
  steps (trace absent false) =
    [ObtainWorkspaceHandle; ResolveDatasetURI; LookupCompute] ∧
  lookups (trace absent true) =
    [(gpu_compute_target,
      Ok (AmlCompute.Build gpu_compute_target "amlcompute"
            "STANDARD_NC12S_V3" 5 300))] ∧
  steps (trace absent true) = flow false ∧
  lookups (trace misconfigured true) =
    [(gpu_compute_target,
      Raise (MlException "no compute schema for the type of rapids-cluster"))] ∧
  creations (trace misconfigured true) = [new_gpu_target] ∧
  outcome misconfigured true = Ok ().
Proof. repeat split; vm_compute; reflexivity. Qed.

(** C2, a counterexample.  The flow of the specification has a step
    that polls the platform for results between the submission of the
    sweep and the download, and runs to the deletion of the cluster in
    every execution.  In the recorded execution, which completes, the
    script makes no call to the platform between the two: it binds two
    names and prints the status URL of the sweep.  And against the
    unreachable compute service the execution ends at the lookup: nothing
    is deleted. *)
Lemma C2_counterexample :
  (outcome recorded true = Ok () ∧
   monitoring (trace recorded true) =
     [ Assign "returned_sweep_job"; Assign "aml_url";
       Print ("Monitor your job at https://ml.azure.com/runs/eager_turtle_r7fs2xzcty"
              +:+ nl) ] ∧
   requests (monitoring (trace recorded true)) = []) ∧
  (steps (trace unreachable true) =
     [ObtainWorkspaceHandle; ResolveDatasetURI; LookupCompute] ∧
   deletions (trace unreachable true) = []).
Proof. repeat split; reflexivity. Qed.

(** C2, amended: the steps an execution goes through come in the order
    of the flow: workspace handle, dataset URI, get-or-create of the
    cluster (the lookup, then the creation when the lookup raised),
    environment, training job, definition of the sweep, submission of the
    sweep, printing of the status URL of the sweep, download, deletion of
    the cluster.  The steps of any execution are an initial part of that
    sequence, and an execution that completes goes through all of it.
    Between the submission of the sweep and the download the script makes
    no call to the platform.  The deletion, when reached, is the last
    event of the transcript and comes after the download. *)
Theorem C2_flow_order {W} (P : Platform W) (w : W) :
  steps (trace P w) `prefix_of` flow (created (trace P w)) ∧
  (outcome P w = Ok () → steps (trace P w) = flow (created (trace P w))) ∧
  requests (monitoring (trace P w)) = [] ∧
  (∀ pre e post,
     trace P w = (pre ++ e :: post)%list →
     step_of e = Some TearDownCluster →
     post = [] ∧ DownloadArtifact ∈ steps pre).
Proof.
  execute P w;
    (split; [eexists; reflexivity|]);
    (split; [intros Ho; first [discriminate Ho | reflexivity]|]);
    (split; [reflexivity|]);
    intros pre e' post He Hs;
    match type of He with
    | ?l = _ =>
        assert (Forall_split
                  (λ pre e post,
                     match step_of e with
                     | Some TearDownCluster =>
                         post = [] ∧ DownloadArtifact ∈ steps pre
                     | _ => True
                     end) [] l) as Hcheck
          by (cbn [Forall_split step_of app]; split_all;
              first [reflexivity | cbn; elem_now])
    end;
    pose proof (Forall_split_cut _ _ Hcheck _ _ _ He) as Hcut;
    cbn beta in Hcut; rewrite Hs in Hcut; exact Hcut.
Qed.

Lemma C2_flow_order_witness :
  outcome recorded false = Ok () ∧
  steps (trace recorded false) =
    [ ObtainWorkspaceHandle; ResolveDatasetURI; LookupCompute; CreateCompute;
      BuildEnvironment; SubmitTrainingJob; DefineSweep; SubmitSweep;
      PrintMonitoringURL; DownloadArtifact; TearDownCluster ].
Proof.
  split; [reflexivity|].
  exact (proj1 (proj2 (C2_flow_order recorded false)) eq_refl).
Defined.

(** C3, a counterexample to its last part: two executions with the same
    configuration values (the same literals, the same workspace handle,
    even the same working directory) that do not pass the same data to
    the platform; the job name passed to the download is the name the
    platform gave the sweep. *)
Lemma C3_counterexample :
  handles (trace recorded true) = handles (trace renamed true) ∧
  cwds (trace recorded true) = cwds (trace renamed true) ∧
  download_names (requests (trace recorded true))
    = ["eager_turtle_r7fs2xzcty"] ∧
  download_names (requests (trace renamed true)) = ["brave_fox_1x2y3z"] ∧
  requests (trace recorded true) ≠ requests (trace renamed true).
Proof.
  split; [reflexivity|]. split; [reflexivity|].
  split; [reflexivity|]. split; [reflexivity|].
  intros H. apply (f_equal download_names) in H.
  vm_compute in H. discriminate H.
Qed.

(** C3, amended: the dataset reference of the training job is the
    datastore URI made of the fields of the workspace handle and of the
    two constants; and every argument the script passes to a call is a
    literal of the script or is built from the configuration values,
    from a working directory [os.getcwd()] returned (the build context of
    the environment, the code path of the jobs) or, for the download
    only, from the sweep job the platform returned (its name). *)
Theorem C3_data_reference {W} (P : Platform W) (w : W) :
  (∀ j, j ∈ submitted_jobs (trace P w) →
     ∃ h, handles (trace P w) = [h] ∧
       Command.inputs j !! "data_dir" =
         Some (VInput (Input.Build "uri_file"
           ("azureml://subscriptions/" +:+ MLClient.subscription_id h
            +:+ "/resourcegroups/" +:+ MLClient.resource_group_name h
            +:+ "/workspaces/" +:+ MLClient.workspace_name h
            +:+ "/datastores/workspaceartifactstore/paths/airline_20000000.parquet")))) ∧
  (∀ q, q ∈ requests (trace P w) → built_from (trace P w) q).
Proof.
  split; [|apply requests_built_from].
  intros j Hj.
  destruct (job_shape P w j Hj) as (h & c1 & c2 & Hh & _ & -> & _).
  exists h. split; [exact Hh|].
  unfold command_job; cbn [Command.inputs].
  rewrite lookup_insert_eq. reflexivity.
Qed.

Lemma C3_data_reference_witness :
  recorded_job ∈ submitted_jobs (trace recorded true) ∧
  RJobsDownload "eager_turtle_r7fs2xzcty" "model"
    ∈ requests (trace recorded true) ∧
  built_from (trace recorded true)
    (RJobsDownload "eager_turtle_r7fs2xzcty" "model") ∧
  ∃ h, handles (trace recorded true) = [h] ∧
       Command.inputs recorded_job !! "data_dir" =
         Some (VInput (Input.Build "uri_file"
           ("azureml://subscriptions/" +:+ MLClient.subscription_id h
            +:+ "/resourcegroups/" +:+ MLClient.resource_group_name h
            +:+ "/workspaces/" +:+ MLClient.workspace_name h
            +:+ "/datastores/workspaceartifactstore/paths/airline_20000000.parquet"))).
Proof.
  assert (recorded_job ∈ submitted_jobs (trace recorded true)) as Hj
    by (vm_compute; left).
  assert (RJobsDownload "eager_turtle_r7fs2xzcty" "model"
            ∈ requests (trace recorded true)) as Hq
    by (vm_compute; elem_now).
  split; [exact Hj|]. split; [exact Hq|].
  split.
  - exact (proj2 (C3_data_reference recorded true) _ Hq).
  - exact (proj1 (C3_data_reference recorded true) _ Hj).
Defined.

(** C4: the sweep job the script submits uses random sampling and the
    primary metric "Accuracy" with goal "Maximize"; its search space has
    exactly three entries: n_estimators, a Choice over the integers 50
    through 499; max_depth, a Choice over the integers 5 through 18;
    max_features, Uniform on the interval from 0.2 to 1.0. *)
Theorem C4_sweep_configuration {W} (P : Platform W) (w : W) (s : Sweep.t) :
  s ∈ submitted_sweeps (trace P w) →
  Sweep.sampling_algorithm s = "random" ∧
  Sweep.objective s = Objective.Build "Maximize" "Accuracy" ∧
  ∃ n_estimators max_depth,
    Sweep.search_space s =
      {[ "n_estimators" := Choice n_estimators;
         "max_depth" := Choice max_depth;
         "max_features" := Uniform 0.2%Q 1.0%Q ]} ∧
    (∀ z : Z, z ∈ n_estimators ↔ (50 ≤ z ≤ 499)%Z) ∧
    (∀ z : Z, z ∈ max_depth ↔ (5 ≤ z ≤ 18)%Z).
Proof.
  intros Hs.
  destruct (sweep_shape P w s Hs) as (j & Hj & -> & _).
  assert (j ∈ submitted_jobs (trace P w)) as Hin by (rewrite Hj; left).
  destruct (job_shape P w j Hin) as (h & c1 & c2 & _ & _ & -> & _).
  split; [reflexivity|]. split; [reflexivity|].
  exists (range 50 500), (range 5 19).
  split; [apply sweep_job_search_space, command_job_plain|].
  split; intros z; rewrite range_spec; lia.
Qed.

Lemma C4_sweep_configuration_witness :
  recorded_sweep ∈ submitted_sweeps (trace recorded true) ∧
  Sweep.sampling_algorithm recorded_sweep = "random" ∧
  Sweep.objective recorded_sweep = Objective.Build "Maximize" "Accuracy" ∧
  Sweep.search_space recorded_sweep !! "max_features" =
    Some (Uniform 0.2%Q 1.0%Q).
Proof.
  assert (recorded_sweep ∈ submitted_sweeps (trace recorded true)) as Hs
    by (vm_compute; left).
  split; [exact Hs|].
  destruct (C4_sweep_configuration recorded true _ Hs)
    as (Ha & Ho & ne & md & Hspace & _).
  split; [exact Ha|]. split; [exact Ho|].
  rewrite Hspace. reflexivity.
Defined.

(** C5: the sweep job handed to the platform carries the limits
    max_total_trials = 10, max_concurrent_trials = 2, timeout = 18000 and
    trial_timeout = 3600.  The script runs its statements one after the
    other (each call of the transcript has returned or raised before the
    next statement runs); the concurrency of the trials is this one field
    of the one sweep job it submits. *)
Theorem C5_sweep_limits {W} (P : Platform W) (w : W) (s : Sweep.t) :
  s ∈ submitted_sweeps (trace P w) →
  Sweep.limits s = Some (SweepJobLimits.Build 10 2 18000 3600) ∧
  submitted_sweeps (trace P w) = [s].
Proof.
  intros Hs.
  destruct (sweep_shape P w s Hs) as (j & _ & -> & Hone).
  split; [reflexivity|exact Hone].
Qed.

Lemma C5_sweep_limits_witness :
  recorded_sweep ∈ submitted_sweeps (trace recorded true) ∧
  (Sweep.limits recorded_sweep ≫= λ l,
     Some (SweepJobLimits.max_concurrent_trials l)) = Some 2.
Proof.
  assert (recorded_sweep ∈ submitted_sweeps (trace recorded true)) as Hs
    by (vm_compute; left).
  split; [exact Hs|].
  rewrite (proj1 (C5_sweep_limits recorded true _ Hs)). reflexivity.
Defined.

(** C6, a counterexample: the same configuration values (the same
    workspace handle, the same literals), the notebook being run from two
    working directories; the two training jobs differ, in their code
    path. *)
Lemma C6_counterexample :
  handles (trace recorded true) = handles (trace moved true) ∧
  Command.code <$> submitted_jobs (trace recorded true) = [demo_cwd] ∧
  Command.code <$> submitted_jobs (trace moved true)
    = ["/home/azureuser/rapids"] ∧
  submitted_jobs (trace recorded true) ≠ submitted_jobs (trace moved true).
Proof.
  split; [reflexivity|]. split; [reflexivity|]. split; [reflexivity|].
  intros H. apply (f_equal (fmap Command.code)) in H.
  vm_compute in H. discriminate H.
Qed.

(** C6, amended: two executions with the same configuration values and
    the same working directory build the same request: their workspace
    handles and the directories [os.getcwd()] returned being the same,
    the training jobs they submit are identical, and so is the datastore
    URI in them. *)
Theorem C6_same_configuration_same_request {W W'}
    (P : Platform W) (w : W) (P' : Platform W') (w' : W') (j j' : Command.t) :
  handles (trace P w) = handles (trace P' w') →
  cwds (trace P w) = cwds (trace P' w') →
  j ∈ submitted_jobs (trace P w) →
  j' ∈ submitted_jobs (trace P' w') →
  j = j' ∧
  ∃ h, handles (trace P w) = [h] ∧ handles (trace P' w') = [h] ∧
       Command.inputs j !! "data_dir" =
         Some (VInput (Input.Build "uri_file" (data_uri h))).
Proof.
  intros Hh Hc Hj Hj'.
  destruct (job_shape P w j Hj) as (h & c1 & c2 & Hh1 & Hc1 & -> & _).
  destruct (job_shape P' w' j' Hj') as (h' & c1' & c2' & Hh2 & Hc2 & -> & _).
  rewrite Hh1, Hh2 in Hh. rewrite Hc1, Hc2 in Hc. simplify_eq.
  split; [reflexivity|]. exists h'. split; [exact Hh1|]. split; [exact Hh2|].
  unfold command_job; cbn [Command.inputs]. apply lookup_insert_eq.
Qed.

Lemma C6_same_configuration_same_request_witness :
  recorded_job ∈ submitted_jobs (trace recorded true) ∧
  recorded_job ∈ submitted_jobs (trace recorded false) ∧
  Command.inputs recorded_job !! "data_dir" =
    Some (VInput (Input.Build "uri_file" (data_uri demo_handle))).
Proof.
  assert (recorded_job ∈ submitted_jobs (trace recorded true)) as Hj
    by (vm_compute; left).
  assert (recorded_job ∈ submitted_jobs (trace recorded false)) as Hj'
    by (vm_compute; left).
  split; [exact Hj|]. split; [exact Hj'|].
  destruct (C6_same_configuration_same_request
              recorded true recorded false recorded_job recorded_job
              eq_refl eq_refl Hj Hj') as (_ & h & Hh & _ & Hd).
  injection Hh as <-. exact Hd.
Defined.



(** C8: one compute-target name, "rapids-cluster", is used throughout.
    Every event that names a compute target (the lookup, the creation,
    the training job, the sweep job, the deletion) names that one; in an
    execution that completes, the cluster looked up, the cluster created
    (when one is), the compute of the training job and of the sweep job,
    and the cluster deleted at the end have the same name. *)
Theorem C8_one_compute_target {W} (P : Platform W) (w : W) :
  gpu_compute_target = "rapids-cluster" ∧
  (∀ n, n ∈ omap compute_target_of (trace P w) → n = "rapids-cluster") ∧
  (outcome P w = Ok () →
   ∃ j s,
     submitted_jobs (trace P w) = [j] ∧
     submitted_sweeps (trace P w) = [s] ∧
     fst <$> lookups (trace P w) = [Command.compute j] ∧
     (created (trace P w) = true →
      AmlCompute.name <$> creations (trace P w) = [Command.compute j]) ∧
     Sweep.compute s = Command.compute j ∧
     deletions (trace P w) = [Command.compute j]).
Proof.
  split; [reflexivity|].
  execute P w; (split; [|intros Ho; try discriminate Ho]).
  all: try (intros n Hn; cbn in Hn; decompose_list_elem_of; subst n; reflexivity).
  all: eexists _, _; split_all; first [reflexivity | discriminate].
Qed.

Lemma C8_one_compute_target_witness :
  outcome recorded false = Ok () ∧
  omap compute_target_of (trace recorded false) =
    [ "rapids-cluster"; "rapids-cluster"; "rapids-cluster"; "rapids-cluster";
      "rapids-cluster" ] ∧
  deletions (trace recorded false) = ["rapids-cluster"].
Proof.
  split; [reflexivity|]. split; [reflexivity|].
  destruct (proj2 (proj2 (C8_one_compute_target recorded false)) eq_refl)
    as (j & s & Hj & _ & _ & _ & _ & Hd).
  injection Hj as <-. exact Hd.
Defined.

(** A versioned reference [name:version] that reads "rapids-mlflow:1"
    has the name "rapids-mlflow" and the version "1". *)
Lemma versioned_reference_inv (name version : string) :
  name +:+ ":" +:+ version = "rapids-mlflow:1" →
  name = "rapids-mlflow" ∧ version = "1".
Proof.
  intros H.
  repeat (destruct name as [|? name]; cbn in H;
          [try discriminate H; try (injection H as <-; split; reflexivity)
          |injection H as -> H]).
  destruct name; discriminate H.
Qed.

(** C9: the training job refers to its environment by the fixed
    reference "rapids-mlflow:1", whatever the registration that precedes
    it returned.  The script registers "rapids-mlflow" without a version;
    the reference of the job designates the environment the platform
    registered exactly when that one is "rapids-mlflow" at version 1. *)
Theorem C9_environment_reference {W} (P : Platform W) (w : W) (j : Command.t) :
  j ∈ submitted_jobs (trace P w) →
  Command.environment j = "rapids-mlflow:1" ∧
  ∀ e r, (e, Ok r) ∈ registrations (trace P w) →
    Environment.name e = "rapids-mlflow" ∧
    Environment.version e = None ∧
    ∀ v, Environment.version r = Some v →
      (Command.environment j = Environment.name r +:+ ":" +:+ v ↔
       Environment.name r = "rapids-mlflow" ∧ v = "1").
Proof.
  intros Hj.
  destruct (job_shape P w j Hj) as (h & c1 & c2 & _ & _ & -> & _).
  split; [reflexivity|].
  intros e r Her.
  destruct (registration_shape P w e _ Her) as [cwd ->].
  split; [reflexivity|]. split; [reflexivity|].
  intros v Hv. cbn [Command.environment command_job]. split.
  - intros H. symmetry in H.
    by apply versioned_reference_inv in H.
  - intros [-> ->]. reflexivity.
Qed.

Lemma C9_environment_reference_witness :
  recorded_job ∈ submitted_jobs (trace recorded true) ∧
  (∃ e r, (e, Ok r) ∈ registrations (trace recorded true) ∧
          Environment.version r = Some "10") ∧
  Command.environment recorded_job = "rapids-mlflow:1".
Proof.
  assert (recorded_job ∈ submitted_jobs (trace recorded true)) as Hj
    by (vm_compute; left).
  split; [exact Hj|].
  split; [eexists _, _; split; [vm_compute; left|reflexivity]|].
  exact (proj1 (C9_environment_reference recorded true _ Hj)).
Defined.




(** ** Further properties of the script *)

Lemma append_assoc (a b c : string) : (a +:+ b) +:+ c = a +:+ (b +:+ c).
Proof.
  induction a as [|x a IH]; [reflexivity|].
  change (String x ((a +:+ b) +:+ c) = String x (a +:+ (b +:+ c))).
  by rewrite IH.
Qed.

(** X1: the cluster is deleted only when everything before succeeded.
    The deletion is requested exactly when the download returned, and an
    execution that fails either never asked for the deletion or failed in
    the deletion itself: a cluster the script created stays up whenever a
    later step fails. *)
Theorem X1_no_teardown_on_failure {W} (P : Platform W) (w : W) :
  (deletions (trace P w) ≠ [] ↔ download_outcomes (trace P w) = [Ok ()]) ∧
  (∀ x, outcome P w = Raise x →
     deletions (trace P w) = [] ∨
     deletion_outcomes (trace P w) = [Raise x]).
Proof.
  execute P w;
    unfold deletions, download_outcomes, deletion_outcomes; cbn;
    repeat match goal with u : unit |- _ => destruct u end;
    (split; [split; intros H; done|]);
    intros x Hx; simplify_eq; eauto.
Qed.

Lemma X1_no_teardown_on_failure_witness :
  outcome download_fails false =
    Raise (OtherException "JobException" "the job has not completed") ∧
  creations (trace download_fails false) = [new_gpu_target] ∧
  deletions (trace download_fails false) = [].
Proof.
  split; [reflexivity|]. split; [reflexivity|].
  destruct (proj2 (X1_no_teardown_on_failure download_fails false) _ eq_refl)
    as [H|H]; [exact H|discriminate H].
Defined.

(** X2: what a completed execution prints, in order: the three fields of
    the workspace handle, one per line; the datastore URI, which is the
    one the training job is given; the line of the branch the lookup
    took (found, or creating and then created with the name and the size
    of the new cluster); and the status URL of the sweep job (not of the
    training job). *)
Theorem X2_output {W} (P : Platform W) (w : W) :
  outcome P w = Ok () →
  ∃ h j r,
    handles (trace P w) = [h] ∧
    submitted_jobs (trace P w) = [j] ∧
    returned_sweep_jobs (trace P w) = [r] ∧
    Command.inputs j !! "data_dir" =
      Some (VInput (Input.Build "uri_file" (data_uri h))) ∧
    prints (trace P w) =
      ([ "Workspace name: " +:+ MLClient.workspace_name h +:+ nl
        +:+ "Subscription id: " +:+ MLClient.subscription_id h +:+ nl
        +:+ "Resource group: " +:+ MLClient.resource_group_name h +:+ nl;
        "data uri: " +:+ nl +:+ " " +:+ data_uri h +:+ nl ]
      ++ (if created (trace P w)
          then [ "Creating a new gpu compute target..." +:+ nl;
                 "AMLCompute with name rapids-cluster is created, the compute size is STANDARD_NC12S_V3"
                 +:+ nl ]
          else [ "found compute target. Will use rapids-cluster" +:+ nl ])
      ++ [ "Monitor your job at " +:+ Job.studio_url r +:+ nl ])%list.
Proof.
  execute P w; intros Ho; try discriminate Ho;
    eexists _, _, _;
    (split; [reflexivity|]); (split; [reflexivity|]); (split; [reflexivity|]);
    (split; [apply lookup_insert_eq|]);
    unfold prints, created, creations; cbn;
    rewrite ?append_assoc; reflexivity.
Qed.

Lemma X2_output_witness :
  outcome recorded false = Ok () ∧
  prints (trace recorded false) !! 2%nat =
    Some ("Creating a new gpu compute target..." +:+ nl) ∧
  prints (trace recorded false) !! 4%nat =
    Some ("Monitor your job at https://ml.azure.com/runs/eager_turtle_r7fs2xzcty"
          +:+ nl).
Proof.
  split; [reflexivity|].
  destruct (X2_output recorded false eq_refl)
    as (h & j & r & Hh & _ & Hr & _ & Hp).
  injection Hh as <-. injection Hr as <-.
  rewrite Hp. split; reflexivity.
Defined.

(** X3: which directory goes where.  The build context of the environment
    is the working directory at the time the environment cell runs; the
    code path of the training job, and with it that of the trials of the
    sweep, is the working directory at the time the training cell runs.
    The two are read separately. *)
Theorem X3_working_directories {W} (P : Platform W) (w : W) (s : Sweep.t) :
  s ∈ submitted_sweeps (trace P w) →
  ∃ c1 c2 e j,
    cwds (trace P w) = [c1; c2] ∧
    fst <$> registrations (trace P w) = [e] ∧
    submitted_jobs (trace P w) = [j] ∧
    BuildContext.path (Environment.build e) = c1 ∧
    Command.code j = c2 ∧
    Trial.code (Sweep.trial s) = c2.
Proof.
  execute P w; unfold submitted_sweeps, cwds, registrations, submitted_jobs;
    cbn; intros Hs; decompose_list_elem_of; subst s;
    eexists _, _, _, _; split_all; reflexivity.
Qed.

Lemma X3_working_directories_witness :
  (∃ s, s ∈ submitted_sweeps (trace wandering O) ∧
        Trial.code (Sweep.trial s) = "/home/azureuser/code") ∧
  (BuildContext.path ∘ Environment.build ∘ fst) <$>
    registrations (trace wandering O) = ["/home/azureuser/docker"].
Proof.
  assert (sweep_job (command_job "/home/azureuser/code" (data_uri demo_handle))
            ∈ submitted_sweeps (trace wandering O)) as Hs
    by (vm_compute; left).
  destruct (X3_working_directories wandering O _ Hs)
    as (c1 & c2 & e & j & Hc & He & _ & He1 & _ & Hs2).
  injection Hc as <- <-.
  split; [eexists; split; [exact Hs|exact Hs2]|].
  reflexivity.
Defined.

(** X4: the training job is a point of the search space: the values it
    gives to the three swept inputs (n_estimators, max_depth,
    max_features) are among the values the sweep draws from. *)
Theorem X4_defaults_in_search_space {W} (P : Platform W) (w : W)
    (j : Command.t) (s : Sweep.t) :
  j ∈ submitted_jobs (trace P w) →
  s ∈ submitted_sweeps (trace P w) →
  ∃ (n d : Z) (f : Q) (ns ds : list Z) (lo hi : Q),
    Command.inputs j !! "n_estimators" = Some (VInt n) ∧
    Sweep.search_space s !! "n_estimators" = Some (Choice ns) ∧ n ∈ ns ∧
    Command.inputs j !! "max_depth" = Some (VInt d) ∧
    Sweep.search_space s !! "max_depth" = Some (Choice ds) ∧ d ∈ ds ∧
    Command.inputs j !! "max_features" = Some (VFloat f) ∧
    Sweep.search_space s !! "max_features" = Some (Uniform lo hi) ∧
    (lo <= f <= hi)%Q.
Proof.
  intros Hj Hs.
  destruct (sweep_shape P w s Hs) as (j' & Hj' & -> & _).
  rewrite Hj' in Hj. apply list_elem_of_singleton in Hj as ->.
  assert (j' ∈ submitted_jobs (trace P w)) as Hin by (rewrite Hj'; left).
  destruct (job_shape P w j' Hin) as (h & c1 & c2 & _ & _ & -> & _).
  rewrite (sweep_job_search_space _ (command_job_plain _ _)).
  exists 100, 6, 0.3%Q, (range 50 500), (range 5 19), 0.2%Q, 1.0%Q.
  split_all; try reflexivity.
  - apply range_spec. lia.
  - apply range_spec. lia.
  - discriminate.
  - discriminate.
Qed.

Lemma X4_defaults_in_search_space_witness :
  recorded_job ∈ submitted_jobs (trace recorded true) ∧
  recorded_sweep ∈ submitted_sweeps (trace recorded true) ∧
  Command.inputs recorded_job !! "max_depth" = Some (VInt 6) ∧
  ∃ ds, Sweep.search_space recorded_sweep !! "max_depth" = Some (Choice ds) ∧
        6 ∈ ds.
Proof.
  assert (recorded_job ∈ submitted_jobs (trace recorded true)) as Hj
    by (vm_compute; left).
  assert (recorded_sweep ∈ submitted_sweeps (trace recorded true)) as Hs
    by (vm_compute; left).
  split; [exact Hj|]. split; [exact Hs|].
  destruct (X4_defaults_in_search_space recorded true _ _ Hj Hs)
    as (n & d & f & ns & ds & lo & hi & _ & _ & _ & Hd & Hds & Hin & _).
  split; [reflexivity|].
  exists ds. split; [exact Hds|].
  assert (d = 6) as <- by (vm_compute in Hd; congruence).
  exact Hin.
Defined.

(** X5: the limits of the sweep fit together and fit the cluster the
    script creates: the trials run at once are at most the trials in total
    and at most the nodes the new cluster may grow to, and the time
    allowed to one trial is at most the time allowed to the sweep. *)
Theorem X5_limits_fit {W} (P : Platform W) (w : W)
    (s : Sweep.t) (c : AmlCompute.t) :
  s ∈ submitted_sweeps (trace P w) →
  c ∈ creations (trace P w) →
  ∃ l, Sweep.limits s = Some l ∧
    (0 < SweepJobLimits.max_concurrent_trials l
       ≤ SweepJobLimits.max_total_trials l)%Z ∧
    (SweepJobLimits.max_concurrent_trials l ≤ AmlCompute.max_instances c)%Z ∧
    (0 < SweepJobLimits.trial_timeout l ≤ SweepJobLimits.timeout l)%Z ∧
    Sweep.compute s = AmlCompute.name c.
Proof.
  intros Hs Hc.
  destruct (sweep_shape P w s Hs) as (j & _ & -> & _).
  assert (c = new_gpu_target) as ->.
  { revert Hc. execute P w; unfold creations; cbn; intros Hc;
      decompose_list_elem_of; done. }
  eexists. split; [reflexivity|]. cbn. split_all; lia || reflexivity.
Qed.

Lemma X5_limits_fit_witness :
  recorded_sweep ∈ submitted_sweeps (trace recorded false) ∧
  new_gpu_target ∈ creations (trace recorded false) ∧
  Sweep.compute recorded_sweep = AmlCompute.name new_gpu_target.
Proof.
  assert (recorded_sweep ∈ submitted_sweeps (trace recorded false)) as Hs
    by (vm_compute; left).
  assert (new_gpu_target ∈ creations (trace recorded false)) as Hc
    by (vm_compute; left).
  split; [exact Hs|]. split; [exact Hc|].
  destruct (X5_limits_fit recorded false _ _ Hs Hc) as (l & _ & _ & _ & _ & H).
  exact H.
Defined.

(** X6: the command line of the training job passes every input and
    nothing else: for each key [k] of the inputs it has the flag
    [--k ${{inputs.k}}], and it has as many [${{inputs.] placeholders as
    the job has inputs. *)
Theorem X6_command_passes_inputs {W} (P : Platform W) (w : W) (j : Command.t) :
  j ∈ submitted_jobs (trace P w) →
  (∀ k, k ∈ dom (Command.inputs j) →
        contains (flag k) (Command.command j) = true) ∧
  occurrences "${{inputs." (Command.command j) = size (Command.inputs j).
Proof.
  intros Hj.
  destruct (job_shape P w j Hj) as (h & c1 & c2 & _ & _ & -> & _).
  split.
  - intros k [v H]%elem_of_dom.
    unfold command_job in H; cbn [Command.inputs] in H.
    repeat (apply lookup_insert_Some in H as [[<- _]|[_ H]];
            [vm_compute; reflexivity|]).
    apply lookup_singleton_Some in H as [<- _]. vm_compute. reflexivity.
  - vm_compute. reflexivity.
Qed.

Lemma X6_command_passes_inputs_witness :
  recorded_job ∈ submitted_jobs (trace recorded true) ∧
  contains "--cv_folds ${{inputs.cv_folds}}" (Command.command recorded_job)
    = true.
Proof.
  assert (recorded_job ∈ submitted_jobs (trace recorded true)) as Hj
    by (vm_compute; left).
  split; [exact Hj|].
  assert ("cv_folds" ∈ dom (Command.inputs recorded_job)) as Hk
    by (apply elem_of_dom; exists (VInt 5); vm_compute; reflexivity).
  exact (proj1 (X6_command_passes_inputs recorded true _ Hj) "cv_folds" Hk).
Defined.

(** X7: the sweep does not wait for the training job.  Between the
    submission of the training job and the submission of the sweep the
    script makes no call to the platform, and the sweep it submits is
    built from the training job as it was submitted: nothing of what the
    first submission returned goes into it. *)
Theorem X7_sweep_follows_job {W} (P : Platform W) (w : W) :
  requests (before_sweep (after_job (trace P w))) = [] ∧
  (∀ s, s ∈ submitted_sweeps (trace P w) →
        ∃ j, submitted_jobs (trace P w) = [j] ∧ s = sweep_job j).
Proof.
  split.
  - execute P w; reflexivity.
  - intros s Hs. destruct (sweep_shape P w s Hs) as (j & Hj & -> & _).
    exists j. split; [exact Hj|reflexivity].
Qed.

Lemma X7_sweep_follows_job_witness :
  recorded_sweep ∈ submitted_sweeps (trace recorded true) ∧
  before_sweep (after_job (trace recorded true)) =
    [ Assign "returned_job"; Assign "command_job_for_sweep";
      Assign "sweep_job" ] ∧
  recorded_sweep = sweep_job recorded_job.
Proof.
  assert (recorded_sweep ∈ submitted_sweeps (trace recorded true)) as Hs
    by (vm_compute; left).
  split; [exact Hs|]. split; [reflexivity|].
  destruct (proj2 (X7_sweep_follows_job recorded true) _ Hs)
    as (j & Hj & He).
  injection Hj as <-. exact He.
Defined.
